(** * surgishop_workspaces: the Frappe app manifest [hooks.py]

    [hooks.py] is the only module of the app.  Its first seven lines are
    assignments of literals to module-level names; every other line
    (9 to 227) is blank or a comment, which Python's tokenizer drops before
    the module body is built.

    The development embeds the fragment of Python a manifest of this kind
    is written in: expressions are string literals, list displays, name
    reads and calls; statements are assignments and imports.  Names, calls
    and imports consult the interpreter that loads the module (its
    builtins, its importable modules), and can raise.  The manifest itself
    uses only the literal part, which is what the theorems below
    establish. *)

From stdpp Require Import gmap strings list fin_maps.

#[local] Set Warnings "-register-all".
Open Scope string_scope.

(** ** Values and exceptions *)

Inductive value : Type :=
| VStr (s : string)
| VList (vs : list value).

Inductive exn : Type :=
| NameError (x : string)
| ImportError (m : string)
| CallError (f : string).

Inductive result (A : Type) : Type :=
| Ok (a : A)
| Raise (e : exn).
Arguments Ok {A} a.
Arguments Raise {A} e.

Definition bind {A B : Type} (m : result A) (k : A -> result B) : result B :=
  match m with
  | Ok a => k a
  | Raise e => Raise e
  end.

Notation "'do' x <- m ; k" := (bind m (fun x => k))
  (at level 10, x name, m at level 100, k at level 200).

(** Left-to-right evaluation of a sequence, stopping at the first raise. *)
Definition mapM {A B : Type} (f : A -> result B) : list A -> result (list B) :=
  fix go (l : list A) : result (list B) :=
    match l with
    | [] => Ok []
    | a :: l' => do b <- f a; do bs <- go l'; Ok (b :: bs)
    end.

(** ** Syntax of module bodies *)

Inductive expr : Type :=
| EStr (s : string)
| EList (es : list expr)
| EName (x : string)
| ECall (f : string) (args : list expr).

Inductive stmt : Type :=
| SAssign (x : string) (e : expr)
| SImport (m : string).

(** What a module body can observe of the interpreter that evaluates it. *)
Record world : Type := World {
  builtins : gmap string value;
  modules : gmap string value;
  call : string -> list value -> option value
}.

(** ** Evaluation *)

Fixpoint eval (w : world) (g : gmap string value) (e : expr) : result value :=
  match e with
  | EStr s => Ok (VStr s)
  | EList es =>
      do vs <- mapM (eval w g) es;
      Ok (VList vs)
  | EName x =>
      match g !! x with
      | Some v => Ok v
      | None =>
          match builtins w !! x with
          | Some v => Ok v
          | None => Raise (NameError x)
          end
      end
  | ECall f args =>
      do vs <- mapM (eval w g) args;
      match call w f vs with
      | Some v => Ok v
      | None => Raise (CallError f)
      end
  end.

Definition exec_stmt (w : world) (g : gmap string value) (s : stmt)
  : result (gmap string value) :=
  match s with
  | SAssign x e => do v <- eval w g e; Ok (<[x := v]> g)
  | SImport m =>
      match modules w !! m with
      | Some v => Ok (<[m := v]> g)
      | None => Raise (ImportError m)
      end
  end.

Fixpoint exec (w : world) (g : gmap string value) (body : list stmt)
  : result (gmap string value) :=
  match body with
  | [] => Ok g
  | s :: rest => do g' <- exec_stmt w g s; exec w g' rest
  end.

(** Importing a module runs its body in a fresh namespace.  The attributes
    the import machinery sets on the module object itself ([__name__],
    [__file__], ...) are not bindings of the body and are left out. *)
Definition import_module (w : world) (body : list stmt)
  : result (gmap string value) :=
  exec w ∅ body.

(** ** The literal fragment *)

Fixpoint is_literal (e : expr) : bool :=
  match e with
  | EStr _ => true
  | EList es => forallb is_literal es
  | EName _ => false
  | ECall _ _ => false
  end.

Definition is_literal_assign (s : stmt) : bool :=
  match s with
  | SAssign _ e => is_literal e
  | SImport _ => false
  end.

(** The value a literal denotes, computed without any interpreter state
    (arbitrary outside the literal fragment, where it is never used). *)
Fixpoint literal_value (e : expr) : value :=
  match e with
  | EStr s => VStr s
  | EList es => VList (map literal_value es)
  | EName _ => VStr ""
  | ECall _ _ => VStr ""
  end.

Definition bind_literal (g : gmap string value) (s : stmt) : gmap string value :=
  match s with
  | SAssign x e => <[x := literal_value e]> g
  | SImport _ => g
  end.

Definition is_str (v : value) : bool :=
  match v with
  | VStr _ => true
  | VList _ => false
  end.

Definition is_str_list (v : value) : bool :=
  match v with
  | VStr _ => false
  | VList vs => forallb is_str vs
  end.

(** ** hooks.py *)

(** Lines 1 to 7 of [hooks.py], in order. *)
Definition hooks : list stmt :=
  [ SAssign "app_name" (EStr "surgishop_workspaces");
    SAssign "app_title" (EStr "SurgiShop Workspaces");
    SAssign "app_publisher" (EStr "SurgiShop");
    SAssign "app_description" (EStr "Custom workspaces for SurgiShop ERPNext");
    SAssign "app_email" (EStr "gary@surgishop.com");
    SAssign "app_license" (EStr "mit");
    SAssign "required_apps" (EList [EStr "erpnext"]) ].

(** The names assigned on lines 1 to 7. *)
Definition metadata_names : list string :=
  [ "app_name"; "app_title"; "app_publisher"; "app_description";
    "app_email"; "app_license"; "required_apps" ].

(** The names whose assignments occur only inside comments
    (lines 13 to 226 of [hooks.py]), in source order. *)
Definition commented_out_names : list string :=
  [ "app_include_css"; "app_include_js"; "web_include_css"; "web_include_js";
    "website_theme_scss"; "webform_include_js"; "webform_include_css";
    "page_js"; "doctype_js"; "doctype_list_js"; "doctype_tree_js";
    "doctype_calendar_js"; "app_include_icons"; "home_page";
    "role_home_page"; "generators"; "jinja"; "before_install";
    "after_install"; "before_uninstall"; "after_uninstall";
    "before_app_install"; "after_app_install"; "before_app_uninstall";
    "after_app_uninstall"; "notification_config";
    "permission_query_conditions"; "has_permission";
    "override_doctype_class"; "doc_events"; "scheduler_events";
    "before_tests"; "override_whitelisted_methods";
    "override_doctype_dashboards"; "auto_cancel_exempted_doctypes";
    "ignore_links_on_delete"; "before_request"; "after_request";
    "before_job"; "after_job"; "user_data_fields"; "auth_hooks";
    "export_python_type_annotations"; "default_log_clearing_doctypes" ].

(** The namespace the seven assignments build, written out. *)
Definition hooks_namespace : gmap string value :=
  foldl bind_literal ∅ hooks.

(** The name a statement binds: the left-hand side of an assignment, the
    module name of an import. *)
Definition target (s : stmt) : string :=
  match s with
  | SAssign x _ => x
  | SImport m => m
  end.

(** The interpreter with nothing in it: no builtins, no importable module,
    every call fails. *)
Definition bare_world : world :=
  World ∅ ∅ (fun _ _ => None).

(** An interpreter that has a builtin, an importable module and a call
    that always answers. *)
Definition busy_world : world :=
  World {[ "app_name" := VStr "frappe" ]} {[ "frappe" := VStr "module" ]}
        (fun _ vs => Some (VList vs)).

(** ** Evaluation of literals *)

Section Literals.
Variable w : world.

Lemma eval_literal (g : gmap string value) (e : expr) :
  is_literal e = true -> eval w g e = Ok (literal_value e).
Proof.
  revert e. fix IH 1. intros [s | es | x | f args]; simpl; try discriminate.
  - reflexivity.
  - intros Hes.
    assert (Hitems : mapM (eval w g) es = Ok (map literal_value es)).
    { induction es as [| e' es' IHes]; simpl in *; [reflexivity |].
      apply andb_true_iff in Hes as [He' Hes'].
      rewrite (IH e' He'). simpl. rewrite (IHes Hes'). reflexivity. }
    rewrite Hitems. reflexivity.
Qed.

Lemma exec_stmt_literal (g : gmap string value) (s : stmt) :
  is_literal_assign s = true -> exec_stmt w g s = Ok (bind_literal g s).
Proof.
  destruct s as [x e | m]; simpl; [| discriminate].
  intros He. rewrite (eval_literal g e He). reflexivity.
Qed.

Lemma exec_literal (body : list stmt) :
  forall g : gmap string value,
    forallb is_literal_assign body = true ->
    exec w g body = Ok (foldl bind_literal g body).
Proof.
  induction body as [| s rest IH]; intros g Hbody; simpl in *.
  - reflexivity.
  - apply andb_true_iff in Hbody as [Hs Hrest].
    rewrite (exec_stmt_literal g s Hs). simpl. apply IH, Hrest.
Qed.

Lemma hooks_literal : forallb is_literal_assign hooks = true.
Proof. reflexivity. Qed.

Lemma import_hooks : import_module w hooks = Ok hooks_namespace.
Proof. unfold import_module, hooks_namespace. apply exec_literal, hooks_literal. Qed.
End Literals.

Lemma hooks_namespace_lookup (x : string) :
  hooks_namespace !! x =
    if decide (x = "required_apps") then Some (VList [VStr "erpnext"])
    else if decide (x = "app_license") then Some (VStr "mit")
    else if decide (x = "app_email") then Some (VStr "gary@surgishop.com")
    else if decide (x = "app_description")
      then Some (VStr "Custom workspaces for SurgiShop ERPNext")
    else if decide (x = "app_publisher") then Some (VStr "SurgiShop")
    else if decide (x = "app_title") then Some (VStr "SurgiShop Workspaces")
    else if decide (x = "app_name") then Some (VStr "surgishop_workspaces")
    else None.
Proof.
  unfold hooks_namespace, hooks. simpl.
  repeat (rewrite lookup_insert; case_decide; [subst; reflexivity |]).
  repeat (case_decide; [congruence |]).
  apply lookup_empty.
Qed.

(** The interpreter is observable in general: a body that reads a name
    behaves differently under [bare_world] and [busy_world]. *)
Lemma world_observable :
  import_module bare_world [SAssign "x" (EName "app_name")]
    = Raise (NameError "app_name") /\
  import_module busy_world [SAssign "x" (EName "app_name")]
    = Ok {[ "x" := VStr "frappe" ]}.
Proof. split; reflexivity. Qed.

(** ** The manifest's bindings *)

(** C1: importing hooks.py binds app_name to the string
    surgishop_workspaces, whatever interpreter loads it. *)
Theorem app_name_value :
  forall w : world, exists ns : gmap string value,
    import_module w hooks = Ok ns /\
    ns !! "app_name" = Some (VStr "surgishop_workspaces").
Proof.
  intros w. exists hooks_namespace. split; [apply import_hooks |].
  rewrite hooks_namespace_lookup. reflexivity.
Qed.

(** C2: importing hooks.py binds required_apps to the one-element list
    whose only item is the string erpnext. *)
Theorem required_apps_value :
  forall w : world, exists ns : gmap string value,
    import_module w hooks = Ok ns /\
    ns !! "required_apps" = Some (VList [VStr "erpnext"]).
Proof.
  intros w. exists hooks_namespace. split; [apply import_hooks |].
  rewrite hooks_namespace_lookup. reflexivity.
Qed.

(** C3: importing hooks.py binds each of the seven metadata names
    app_name, app_title, app_publisher, app_description, app_email,
    app_license and required_apps. *)
Theorem metadata_names_bound :
  forall w : world, exists ns : gmap string value,
    import_module w hooks = Ok ns /\
    Forall (fun x => is_Some (ns !! x)) metadata_names.
Proof.
  intros w. exists hooks_namespace. split; [apply import_hooks |].
  unfold metadata_names.
  repeat (apply Forall_cons; split;
          [rewrite hooks_namespace_lookup; simpl; eexists; reflexivity |]).
  apply Forall_nil_2.
Qed.

(** C4: importing hooks.py binds exactly the seven metadata names and
    nothing else; in particular none of the hook names that occur in the
    commented-out part of the file (scheduler_events, doc_events,
    permission_query_conditions, has_permission,
    override_whitelisted_methods, before_install, after_install,
    before_request, after_request, before_job, after_job,
    user_data_fields, auth_hooks and the others) is bound. *)
Theorem no_active_hooks :
  forall w : world, exists ns : gmap string value,
    import_module w hooks = Ok ns /\
    dom ns = list_to_set metadata_names /\
    Forall (fun h => ns !! h = None) commented_out_names.
Proof.
  intros w. exists hooks_namespace. split; [apply import_hooks |]. split.
  - apply set_eq. intros x. rewrite elem_of_dom, hooks_namespace_lookup.
    unfold metadata_names. rewrite elem_of_list_to_set.
    repeat (case_decide;
            [subst x; split; [intros _; set_solver | intros _; eexists; reflexivity] |]).
    split; [intros [v Hv]; discriminate |].
    intros Hin. repeat (apply elem_of_cons in Hin as [Heq | Hin]; [congruence |]).
    apply elem_of_nil in Hin. contradiction.
  - unfold commented_out_names.
    repeat (apply Forall_cons; split;
            [rewrite hooks_namespace_lookup; reflexivity |]).
    apply Forall_nil_2.
Qed.

(** C5: importing hooks.py always returns a namespace and never raises,
    under every interpreter; its body is seven statements, each the
    assignment of a literal (no name read, no call, no import). *)
Theorem import_hooks_total :
  forall w : world,
    (exists ns : gmap string value, import_module w hooks = Ok ns) /\
    (forall e : exn, import_module w hooks <> Raise e) /\
    length hooks = 7 /\
    forallb is_literal_assign hooks = true.
Proof.
  intros w. rewrite import_hooks. repeat split.
  - exists hooks_namespace. reflexivity.
  - intros e. discriminate.
Qed.

(** C6, as stated, fails: under [bare_world] the import binds
    required_apps to a list, which is not a string, so not every binding
    of hooks.py is a string. *)
Lemma not_all_bindings_strings :
  (exists (ns : gmap string value) (v : value),
     import_module bare_world hooks = Ok ns /\
     ns !! "required_apps" = Some v /\
     is_str v = false) /\
  ~ (forall (w : world) (ns : gmap string value),
       import_module w hooks = Ok ns ->
       map_Forall (fun _ v => is_str v = true) ns).
Proof.
  split.
  - exists hooks_namespace, (VList [VStr "erpnext"]).
    split; [apply import_hooks |].
    rewrite hooks_namespace_lookup. split; reflexivity.
  - intros Hall.
    specialize (Hall bare_world hooks_namespace (import_hooks bare_world)).
    specialize (Hall "required_apps" (VList [VStr "erpnext"])).
    rewrite hooks_namespace_lookup in Hall. simpl in Hall.
    specialize (Hall eq_refl). discriminate.
Qed.

(** C6, amended: every binding of hooks.py other than required_apps is
    bound to a string, and required_apps is bound to a list of strings.
    Both halves are about bindings that exist: required_apps is bound,
    to a list whose items are all strings, and each of the six other
    metadata names is bound, to a string. *)
Theorem bindings_strings_or_string_list :
  forall w : world, exists ns : gmap string value,
    import_module w hooks = Ok ns /\
    map_Forall (fun x v =>
                  if decide (x = "required_apps")
                  then is_str_list v = true
                  else is_str v = true) ns /\
    (exists v : value,
       ns !! "required_apps" = Some v /\ is_str_list v = true) /\
    Forall (fun x => exists v : value, ns !! x = Some v /\ is_str v = true)
           [ "app_name"; "app_title"; "app_publisher"; "app_description";
             "app_email"; "app_license" ].
Proof.
  intros w. exists hooks_namespace. split; [apply import_hooks |].
  split; [| split].
  - intros x v Hx. rewrite hooks_namespace_lookup in Hx.
    repeat (case_decide; [injection Hx as <-; reflexivity |]).
    discriminate.
  - exists (VList [VStr "erpnext"]).
    rewrite hooks_namespace_lookup. split; reflexivity.
  - repeat (apply Forall_cons; split;
            [rewrite hooks_namespace_lookup; simpl; eexists;
             split; reflexivity |]).
    apply Forall_nil_2.
Qed.

(** C7: importing hooks.py binds app_license to the lowercase string mit,
    which is not the string MIT. *)
Theorem app_license_value :
  forall w : world, exists ns : gmap string value,
    import_module w hooks = Ok ns /\
    ns !! "app_license" = Some (VStr "mit") /\
    ns !! "app_license" <> Some (VStr "MIT").
Proof.
  intros w. exists hooks_namespace. split; [apply import_hooks |].
  rewrite hooks_namespace_lookup. simpl. split; [reflexivity | discriminate].
Qed.

(** C8: importing hooks.py binds app_title, app_publisher,
    app_description and app_email to the literal strings of lines 2 to 5,
    none of which is the empty string. *)
Theorem identity_metadata_values :
  forall w : world, exists ns : gmap string value,
    import_module w hooks = Ok ns /\
    ns !! "app_title" = Some (VStr "SurgiShop Workspaces") /\
    ns !! "app_publisher" = Some (VStr "SurgiShop") /\
    ns !! "app_description"
      = Some (VStr "Custom workspaces for SurgiShop ERPNext") /\
    ns !! "app_email" = Some (VStr "gary@surgishop.com") /\
    Forall (fun x => ns !! x <> Some (VStr ""))
           ["app_title"; "app_publisher"; "app_description"; "app_email"].
Proof.
  intros w. exists hooks_namespace. split; [apply import_hooks |].
  rewrite !hooks_namespace_lookup. simpl. repeat split.
  repeat (apply Forall_cons; split;
          [rewrite hooks_namespace_lookup; simpl; discriminate |]).
  apply Forall_nil_2.
Qed.

(** C9: any two imports of hooks.py, under any two interpreters, return
    the same namespace: the same names bound to the same values. *)
Theorem import_hooks_deterministic :
  forall w1 w2 : world, exists ns : gmap string value,
    import_module w1 hooks = Ok ns /\
    import_module w2 hooks = Ok ns /\
    import_module w1 hooks = import_module w2 hooks.
Proof.
  intros w1 w2. exists hooks_namespace.
  rewrite (import_hooks w1), (import_hooks w2). repeat split.
Qed.

(** ** Re-executing and reordering the manifest *)

(** Bodies of literal assignments to pairwise distinct names build the same
    namespace in any order. *)
Lemma foldl_bind_literal_perm (b1 b2 : list stmt) :
  Permutation b1 b2 ->
  NoDup (map target b1) ->
  forall g : gmap string value,
    foldl bind_literal g b1 = foldl bind_literal g b2.
Proof.
  induction 1 as [| s l l' Hperm IH | s1 s2 l | l l' l'' H1 IH1 H2 IH2];
    intros Hnd g; simpl in *.
  - reflexivity.
  - apply IH. apply NoDup_cons in Hnd as [_ Hnd]. exact Hnd.
  - f_equal.
    apply NoDup_cons in Hnd as [Hnotin _].
    apply not_elem_of_cons in Hnotin as [Hne _].
    destruct s1 as [x1 e1 | m1], s2 as [x2 e2 | m2]; simpl in *;
      try reflexivity.
    apply insert_insert_ne. congruence.
  - rewrite (IH1 Hnd g). apply IH2.
    assert (Hp : map target l ≡ₚ map target l') by apply Permutation_map, H1.
    rewrite <- Hp. exact Hnd.
Qed.

Lemma hooks_targets_nodup : NoDup (map target hooks).
Proof. apply (bool_decide_unpack _). vm_compute. exact I. Qed.

Lemma foldl_hooks_lookup (g : gmap string value) (x : string) :
  foldl bind_literal g hooks !! x =
    if decide (x ∈ metadata_names) then hooks_namespace !! x else g !! x.
Proof.
  rewrite hooks_namespace_lookup. unfold hooks, metadata_names. simpl.
  repeat (rewrite lookup_insert; case_decide;
          [subst x; rewrite decide_True by set_solver; reflexivity |]).
  rewrite decide_False; [reflexivity |].
  intros Hin.
  repeat (apply elem_of_cons in Hin as [Heq | Hin]; [congruence |]).
  apply elem_of_nil in Hin. contradiction.
Qed.

(** X1: executing the body of hooks.py in a namespace that already holds
    bindings (a reload) never raises; afterwards each of the seven
    metadata names has its literal value, whatever it was bound to
    before, and every other name is bound exactly as before. *)
Theorem exec_hooks_frame :
  forall (w : world) (g : gmap string value),
  exists ns : gmap string value,
    exec w g hooks = Ok ns /\
    forall x : string,
      ns !! x =
        if decide (x ∈ metadata_names) then hooks_namespace !! x else g !! x.
Proof.
  intros w g. exists (foldl bind_literal g hooks).
  split; [apply exec_literal, hooks_literal |].
  intros x. apply foldl_hooks_lookup.
Qed.

(** X2: executing the body of hooks.py a second time, on the namespace
    the first execution returned and under any interpreter, returns that
    same namespace: reloading the manifest changes nothing. *)
Theorem exec_hooks_idempotent :
  forall (w w' : world) (g : gmap string value),
  exists ns : gmap string value,
    exec w g hooks = Ok ns /\ exec w' ns hooks = Ok ns.
Proof.
  intros w w' g. exists (foldl bind_literal g hooks).
  split; [apply exec_literal, hooks_literal |].
  rewrite (exec_literal w' hooks _ hooks_literal). f_equal.
  apply map_eq. intros x. rewrite !foldl_hooks_lookup.
  case_decide; reflexivity.
Qed.

(** X3: the order of the seven lines is immaterial: any reordering of the
    statements of hooks.py, executed in any namespace under any
    interpreter, gives the same result as hooks.py itself. *)
Theorem exec_hooks_order_irrelevant :
  forall (w : world) (g : gmap string value) (body : list stmt),
    Permutation body hooks ->
    exec w g body = exec w g hooks.
Proof.
  intros w g body Hperm.
  assert (Hlit : forallb is_literal_assign body = true).
  { apply forallb_forall. intros s Hs.
    apply (proj1 (forallb_forall is_literal_assign hooks) hooks_literal).
    eapply Permutation_in; [exact Hperm | exact Hs]. }
  rewrite (exec_literal w body g Hlit), (exec_literal w hooks g hooks_literal).
  f_equal. symmetry. apply foldl_bind_literal_perm.
  - symmetry. exact Hperm.
  - apply hooks_targets_nodup.
Qed.

Lemma exec_hooks_order_irrelevant_witness :
  Permutation (rev hooks) hooks /\
  exec busy_world {[ "app_name" := VStr "stale" ]} (rev hooks)
    = exec busy_world {[ "app_name" := VStr "stale" ]} hooks.
Proof.
  assert (Hperm : Permutation (rev hooks) hooks).
  { symmetry. apply Permutation_rev. }
  split; [exact Hperm |].
  apply (exec_hooks_order_irrelevant busy_world _ (rev hooks) Hperm).
Defined.
